(** * Frame interpolation nodes of comfy_mtb: [src/nodes/image_interpolation.py]

    Shallow embedding of the two ComfyUI nodes [LoadFilmModel] and
    [FilmInterpolation].  Effects are modelled with a small writer/error
    monad: a computation returns the trace of observable events it produced
    (log lines, progress bar updates, calls into tensorflow / FILM, checks
    of the host interrupt flag) together with either a raised Python
    exception or a result.  Python exceptions keep the trace produced
    before they were raised. *)

From Stdlib Require Import String Ascii List Arith Lia Bool ZArith.
Import ListNotations.
Open Scope string_scope.
Open Scope list_scope.

(** ** Python exceptions that can leave the two nodes *)

Inductive exc :=
| ValueError (msg : string)
| RuntimeError (msg : string)
(** [comfy.model_management.InterruptProcessingException], raised by
    [throw_exception_if_processing_interrupted] when the host asked to
    cancel the running prompt *)
| InterruptProcessingException
(** any exception raised inside tensorflow or the FILM library, with its
    class name; it propagates through this module unchanged *)
| ExternalError (cls : string) (msg : string).

(** ** Observable events *)

Inductive level := DEBUG | INFO | WARNING | ERROR.

(** The f-strings passed to [log]. *)
Inductive log_msg :=
| ModelDoesNotExist (model_path : string)  (* f"Model {model_path} does not exist" *)
| LoadingModel (model_path : string)       (* f"Loading model {model_path}" *)
| GpuNotAvailable                          (* "Tensorflow GPU not available, ..." *)
| GpuAvailable (gpus : list string)        (* f"Tensorflow GPU available, using {available_gpus}" *)
| WillInterpolate (num_frames : nat)       (* f"Will interpolate into {num_frames} frames" *)
| ReturningTensors (count : nat)           (* f"Returning {len(out_tensors)} tensors" *)
| OutputShape (shape : list nat)           (* f"Output shape {out_tensors.shape}" *)
| OutputType.                              (* f"Output type {out_tensors.dtype}" *)

Inductive event :=
| Log (lvl : level) (m : log_msg)
| ListGpus                    (* tf.config.list_physical_devices("GPU") *)
| InterpolatorNew (p : string) (* interpolator.Interpolator(p, None) *)
| PbarNew (total : nat)       (* comfy.utils.ProgressBar(total) *)
| PbarUpdate (k : nat)        (* pbar.update(k) *)
| DelegateStart               (* first next() on interpolate_recursively_from_memory *)
| InterruptCheck.             (* model_management.throw_exception_if_processing_interrupted() *)

(** ** Writer / error monad *)

Definition M (A : Type) : Type := list event * (exc + A).

Definition ret {A} (a : A) : M A := ([], inr a).
Definition raise {A} (e : exc) : M A := ([], inl e).
Definition emit (ev : event) : M unit := ([ev], inr tt).
Definition lift {A} (r : exc + A) : M A := ([], r).

Definition bind {A B} (m : M A) (f : A -> M B) : M B :=
  match m with
  | (w, inl e) => (w, inl e)
  | (w, inr a) => let (w', r) := f a in ((w ++ w')%list, r)
  end.

Notation "x <- m ;; k" := (bind m (fun x => k))
  (at level 61, m at next level, right associativity).
Notation "m ;;; k" := (bind m (fun _ => k))
  (at level 61, right associativity).

(** Sum of the [pbar.update(k)] increments of a trace, uncapped: with
    [update(1)] only, the number of [update] calls.  The bar's own value,
    which is capped at its total, is [pbar_state] below. *)
Fixpoint progress (tr : list event) : nat :=
  match tr with
  | [] => 0
  | PbarUpdate k :: tr' => k + progress tr'
  | _ :: tr' => progress tr'
  end.



(** ** Filesystem and [pathlib.Path] *)

(** A path is its list of components; [p / s] is [p ++ [s]]. *)
Definition path := list string.

Definition as_posix (p : path) : string := String.concat "/" p.

(** The filesystem is the list of paths that exist (files and directories). *)
Definition fs_t := list path.

Definition path_exists (fs : fs_t) (p : path) : bool :=
  existsb (fun q => if list_eq_dec string_dec p q then true else false) fs.

(** A well-formed filesystem: the parent of an existing entry exists. *)
Definition parent_closed (fs : fs_t) : bool :=
  forallb (fun q => match removelast q with
                    | [] => true
                    | r => path_exists fs r
                    end) fs.

(** ** [LoadFilmModel] *)

Section LoadFilmModel.

Variable handle : Type.
(** [interpolator.Interpolator(model_path, None)] of the FILM library *)
Variable Interpolator : string -> exc + handle.

(** [LoadFilmModel.load_model]; [models_dir] is [folder_paths.models_dir].
    The node returns the 1-tuple [(handle,)]; the tuple is left implicit. *)
Definition load_model (models_dir : path) (fs : fs_t) (film_model : string)
  : M handle :=
  let model_path0 := models_dir ++ ["FILM"; film_model] in
  let model_path :=
    if negb (path_exists fs (model_path0 ++ ["saved_model.pb"]))
    then model_path0 ++ ["saved_model"] else model_path0 in
  if negb (path_exists fs model_path) then
    emit (Log ERROR (ModelDoesNotExist (as_posix model_path))) ;;;
    raise (ValueError ("Model " ++ as_posix model_path ++ " does not exist")%string)
  else
    emit (Log INFO (LoadingModel (as_posix model_path))) ;;;
    emit (InterpolatorNew (as_posix model_path)) ;;;
    lift (Interpolator (as_posix model_path)).

End LoadFilmModel.

(** ** [FilmInterpolation] *)

Section FilmInterpolation.

(** torch tensors (one image of a batch), numpy arrays, FILM interpolators *)
Variables tensor arr handle : Type.
(** [torch.from_numpy] *)
Variable from_numpy : arr -> tensor.
(** shape of one image tensor (H, W, C) *)
Variable frame_shape : tensor -> list nat.

(** An element yielded by the FILM generator: a numpy array (a synthesised
    frame) or a torch tensor (an input frame passed through). *)
Inductive yielded :=
| YArray (a : arr)
| YTensor (t : tensor).

(** [util.interpolate_recursively_from_memory(in_frames, times, interpolator)]
    of the FILM library: the finite list of elements the generator yields,
    and the exception it raises after them, if any. *)
Variable interpolate_recursively_from_memory :
  list tensor -> nat -> handle -> list yielded * option exc.

(** The host as seen by the node: the devices returned by
    [tf.config.list_physical_devices("GPU")], and the answer of the
    interrupt flag at each call of [throw_exception_if_processing_interrupted]
    (the [k]-th call, counting from 1, raises iff [interrupt_at k]). *)
Record host := mkHost {
  gpus : list string;
  interrupt_at : nat -> bool
}.

(** [torch.from_numpy(frame) if isinstance(frame, np.ndarray) else frame] *)
Definition to_tensor (y : yielded) : tensor :=
  match y with
  | YArray a => from_numpy a
  | YTensor t => t
  end.

(** [model_management.throw_exception_if_processing_interrupted()], the
    [k]-th call *)
Definition throw_exception_if_processing_interrupted (h : host) (k : nat)
  : M unit :=
  emit InterruptCheck ;;;
  if interrupt_at h k then raise InterruptProcessingException else ret tt.

(** The [for frame in ...] loop; [k] frames were consumed before, [out] is
    [out_tensors], [stop] the generator's final exception. *)
Fixpoint consume (h : host) (k : nat) (ys : list yielded) (stop : option exc)
  (out_tensors : list tensor) : M (list tensor) :=
  match ys with
  | [] => match stop with None => ret out_tensors | Some e => raise e end
  | frame :: ys' =>
      let out_tensors' := out_tensors ++ [to_tensor frame] in
      throw_exception_if_processing_interrupted h (S k) ;;;
      emit (PbarUpdate 1) ;;;
      consume h (S k) ys' stop out_tensors'
  end.

Definition shape_eqb (s t : list nat) : bool :=
  if list_eq_dec Nat.eq_dec s t then true else false.

(** [torch.cat([t.unsqueeze(0) for t in ts], dim=0)]: a batch whose [i]-th
    image is [ts[i]]; on an empty list torch raises [ValueError], on images
    of different shapes [RuntimeError] (whose message, which names the
    sizes, is abbreviated here). *)
Definition torch_cat_unsqueeze (ts : list tensor) : exc + list tensor :=
  match ts with
  | [] => inl (ValueError "torch.cat(): expected a non-empty list of Tensors")
  | t :: _ =>
      if forallb (fun u => shape_eqb (frame_shape u) (frame_shape t)) ts
      then inr ts
      else inl (RuntimeError "Sizes of tensors must match")
  end.

Definition batch_shape (b : list tensor) : list nat :=
  length b :: match b with t :: _ => frame_shape t | [] => [] end.

(** [FilmInterpolation.do_interpolation]; a batch of images is the list of
    its images, [images.size(0)] its length.  The node returns the 1-tuple
    [(out_tensors,)]; the tuple is left implicit. *)
Definition do_interpolation (h : host) (images : list tensor)
  (interpolate : nat) (film_model : handle) : M (list tensor) :=
  let n := length images in
  if Nat.eqb n 0 then ret images else
  emit ListGpus ;;;
  (if Nat.eqb (length (gpus h)) 0
   then emit (Log WARNING GpuNotAvailable)
   else emit (Log DEBUG (GpuAvailable (gpus h)))) ;;;
  let num_frames := ((n - 1) * (2 ^ interpolate - 1))%nat in
  emit (Log DEBUG (WillInterpolate num_frames)) ;;;
  let in_frames := images in
  emit (PbarNew num_frames) ;;;
  emit DelegateStart ;;;
  let '(ys, stop) :=
    interpolate_recursively_from_memory in_frames interpolate film_model in
  out_tensors <- consume h 0 ys stop [] ;;
  out_tensors <- lift (torch_cat_unsqueeze out_tensors) ;;
  emit (Log DEBUG (ReturningTensors (length out_tensors))) ;;;
  emit (Log DEBUG (OutputShape (batch_shape out_tensors))) ;;;
  emit (Log DEBUG OutputType) ;;;
  ret out_tensors.

End FilmInterpolation.

(** ** Declared input schemas ([INPUT_TYPES]) *)

(** One declared input: a choice list with its default, an ["INT"] with its
    default, min and max, or a bare type tag such as ["IMAGE"]. *)
Inductive input_decl :=
| Choice (options : list string) (default : string)
| IntInput (default min max : Z)
| TypeTag (tag : string).

Definition schema := list (string * list (string * input_decl)).

Definition LoadFilmModel_INPUT_TYPES : schema :=
  [("required", [("film_model", Choice ["L1"; "Style"; "VGG"] "Style")])].

Definition FilmInterpolation_INPUT_TYPES : schema :=
  [("required",
    [("images", TypeTag "IMAGE");
     ("interpolate", IntInput 2 1 50);
     ("film_model", TypeTag "FILM_MODEL")])].

Fixpoint assoc {A} (k : string) (l : list (string * A)) : option A :=
  match l with
  | [] => None
  | (k', v) :: l' => if String.eqb k k' then Some v else assoc k l'
  end.

Definition required_input (s : schema) (name : string) : option input_decl :=
  match assoc "required" s with
  | Some ins => assoc name ins
  | None => None
  end.

(** Values a node input can carry. *)
Inductive value :=
| VStr (s : string)
| VInt (z : Z)
| VObj (tag : string).

(** What a declared input admits, read off its declaration: a member of the
    choice list, an integer within [min, max], an object of the tag. *)
Definition admits (d : input_decl) (v : value) : bool :=
  match d, v with
  | Choice opts _, VStr s => existsb (String.eqb s) opts
  | IntInput _ lo hi, VInt z => (lo <=? z)%Z && (z <=? hi)%Z
  | TypeTag t, VObj t' => String.eqb t t'
  | _, _ => false
  end.

Arguments YArray {tensor arr} a.
Arguments YTensor {tensor arr} t.
Arguments to_tensor {tensor arr} from_numpy y.
Arguments consume {tensor arr} from_numpy h k ys stop out_tensors.
Arguments torch_cat_unsqueeze {tensor} frame_shape ts.
Arguments batch_shape {tensor} frame_shape b.
Arguments do_interpolation {tensor arr handle} from_numpy frame_shape
  interpolate_recursively_from_memory h images interpolate film_model.
Arguments load_model {handle} Interpolator models_dir fs film_model.

(** Events of [m] iterations of the loop body that do not raise. *)
Definition loop_trace (m : nat) : list event :=
  concat (repeat [InterruptCheck; PbarUpdate 1] m).


(** The log line of the GPU preflight. *)
Definition is_gpu_log (ev : event) : bool :=
  match ev with
  | Log _ GpuNotAvailable | Log _ (GpuAvailable _) => true
  | _ => false
  end.

(** ** [LoadFilmModel.get_models] *)

(** [l] starts with [p] (lists of characters). *)
Fixpoint ascii_prefixb (p l : list ascii) : bool :=
  match p, l with
  | [], _ => true
  | a :: p', b :: l' => Ascii.eqb a b && ascii_prefixb p' l'
  | _ :: _, [] => false
  end.

(** [s.endswith(suffix)] *)
Definition endswith (s suffix : string) : bool :=
  ascii_prefixb (rev (list_ascii_of_string suffix)) (rev (list_ascii_of_string s)).

(** Names the glob pattern [*] does not match: hidden entries. *)
Definition is_hidden (name : string) : bool :=
  match name with
  | String c _ => Ascii.eqb c "."%char
  | EmptyString => false
  end.

(** [q] with the leading components [dir] removed, if [q] is under [dir]. *)
Fixpoint strip_prefix (dir q : path) : option path :=
  match dir, q with
  | [], _ => Some q
  | d :: dir', x :: q' => if string_dec d x then strip_prefix dir' q' else None
  | _ :: _, [] => None
  end.

(** [glob.glob(os.path.join(dir, "*"))] for a [dir] without glob
    metacharacters ([*], [?], [[]): the non-hidden entries directly in [dir],
    in the order the directory lists them (here: the order of [fs]).  A
    [models_dir] containing such characters is itself read as a pattern by
    [glob], which this definition does not model. *)
Definition glob_star (fs : fs_t) (dir : path) : list path :=
  filter (fun q => match strip_prefix dir q with
                   | Some [name] => negb (is_hidden name)
                   | _ => false
                   end) fs.

(** [LoadFilmModel.get_models]: the entries of [<models_dir>/FILM] whose
    path ends with [.onnx] or [.pth]; [Path(x)] is the path [x] was printed
    from. *)
Definition get_models (models_dir : path) (fs : fs_t) : list path :=
  let models := glob_star fs (models_dir ++ ["FILM"]) in
  filter (fun x => endswith (as_posix x) ".onnx" || endswith (as_posix x) ".pth")
    models.

(** ** Concrete instances for the witnesses

    Images, numpy arrays and tensors are numbered; [torch.from_numpy] shifts
    by 1000 so converted frames are recognisable; the FILM stub yields three
    frames per adjacent pair, as FILM does for [times_to_interpolate = 2]
    without its endpoint frames. *)

Definition stub_pair (a c : nat) : list (yielded nat nat) :=
  [YArray (10 * a + 1); YTensor (10 * a + 2); YArray (10 * a + 3)].

Definition stub_delegate (imgs : list nat) (d : nat) (_ : unit)
  : list (yielded nat nat) * option exc :=
  (flat_map (fun '(a, c) => stub_pair a c) (combine imgs (tl imgs)), None).

Definition stub_from_numpy (a : nat) : nat := a + 1000.
Definition stub_shape (_ : nat) : list nat := [4; 4; 3].

Definition stub_run (h : host) (images : list nat) (d : nat) : M (list nat) :=
  do_interpolation stub_from_numpy stub_shape stub_delegate h images d tt.

Definition quiet_host : host := mkHost [] (fun _ => false).
Definition cancel_host : host :=
  mkHost ["/physical_device:GPU:0"] (fun k => Nat.eqb k 2).

Definition film_models_dir : path := [""; "models"].
Definition film_fs : fs_t :=
  [[""]; [""; "models"]; [""; "models"; "FILM"];
   [""; "models"; "FILM"; "Style"]; [""; "models"; "FILM"; "Style"; "saved_model"];
   [""; "models"; "FILM"; "Style"; "saved_model"; "saved_model.pb"]].

Definition stub_interpolator (p : string) : exc + string := inr p.

Definition stub_delegate_err (imgs : list nat) (d : nat) (_ : unit)
  : list (yielded nat nat) * option exc :=
  (fst (stub_delegate imgs d tt),
   Some (ExternalError "ResourceExhaustedError" "OOM when allocating tensor")).

Definition stub_delegate_none (imgs : list nat) (d : nat) (_ : unit)
  : list (yielded nat nat) * option exc := ([], None).

(** converted numpy frames (numbered from 1000) are twice as large *)
Definition stub_shape_mixed (t : nat) : list nat :=
  if Nat.ltb t 1000 then [4; 4; 3] else [8; 8; 3].

Definition gpu_host : host := mkHost ["/physical_device:GPU:0"] (fun _ => false).

Definition film_fs_exported : fs_t :=
  [[""]; [""; "models"]; [""; "models"; "FILM"];
   [""; "models"; "FILM"; "Style"]; [""; "models"; "FILM"; "film_net_fp32.pth"];
   [""; "models"; "FILM"; ".partial.onnx"]; [""; "models"; "FILM"; "README.md"]].

(** ** Monad lemmas *)

Lemma bind_inr {A B} (w : list event) (a : A) (f : A -> M B) :
  bind (w, inr a) f = (w ++ fst (f a), snd (f a)).
Proof. simpl. destruct (f a); reflexivity. Qed.

Lemma bind_inl {A B} (w : list event) (e : exc) (f : A -> M B) :
  bind (w, inl e) f = (w, inl e).
Proof. reflexivity. Qed.

Lemma progress_app (t1 t2 : list event) :
  progress (t1 ++ t2) = progress t1 + progress t2.
Proof.
  induction t1 as [|[] t1 IH]; simpl; rewrite ?IH; lia.
Qed.

Lemma progress_loop_trace (m : nat) : progress (loop_trace m) = m.
Proof.
  induction m as [|m IH]; [reflexivity|].
  unfold loop_trace in *; simpl. rewrite IH. reflexivity.
Qed.





Lemma loop_trace_S (m : nat) :
  loop_trace (S m) = InterruptCheck :: PbarUpdate 1 :: loop_trace m.
Proof. reflexivity. Qed.


Lemma filter_gpu_loop_trace (m : nat) :
  filter (fun ev => negb (is_gpu_log ev)) (loop_trace m) = loop_trace m.
Proof.
  induction m as [|m IH]; [reflexivity|].
  rewrite loop_trace_S. simpl. rewrite IH. reflexivity.
Qed.

Section LoopProofs.

Variables tensor arr : Type.
Variable from_numpy : arr -> tensor.

Lemma consume_all (h : host) (k : nat) (ys : list (yielded tensor arr))
  (out : list tensor) :
  (forall i, k < i <= k + length ys -> interrupt_at h i = false) ->
  consume from_numpy h k ys None out
  = (loop_trace (length ys), inr (out ++ map (to_tensor from_numpy) ys)).
Proof.
  revert k out; induction ys as [|y ys IH]; intros k out Hi.
  - simpl. rewrite app_nil_r. reflexivity.
  - cbn [consume]. unfold throw_exception_if_processing_interrupted.
    rewrite (Hi (S k)) by (simpl; lia).
    rewrite IH by (intros i Hr; apply Hi; simpl; lia).
    simpl. rewrite <- app_assoc. reflexivity.
Qed.

Lemma consume_inr (h : host) (k : nat) (ys : list (yielded tensor arr))
  (stop : option exc) (out r : list tensor) :
  snd (consume from_numpy h k ys stop out) = inr r ->
  stop = None /\ (forall i, k < i <= k + length ys -> interrupt_at h i = false).
Proof.
  revert k out; induction ys as [|y ys IH]; intros k out H.
  - simpl in H. destruct stop; [discriminate|].
    split; [reflexivity|]. simpl; intros; lia.
  - cbn [consume] in H. unfold throw_exception_if_processing_interrupted in H.
    destruct (interrupt_at h (S k)) eqn:Ek; [discriminate|].
    simpl in H.
    destruct (consume from_numpy h (S k) ys stop (out ++ [to_tensor from_numpy y]))
      as [w r'] eqn:E.
    simpl in H.
    assert (Hr : snd (consume from_numpy h (S k) ys stop
                        (out ++ [to_tensor from_numpy y])) = inr r)
      by (rewrite E; exact H).
    destruct (IH _ _ Hr) as [Hs Hi]. split; [exact Hs|].
    intros i Hir. simpl in Hir.
    destruct (Nat.eq_dec i (S k)) as [->|Hne]; [exact Ek|].
    apply Hi. lia.
Qed.

Lemma consume_first_interrupt (h : host) (k : nat)
  (ys : list (yielded tensor arr)) (stop : option exc) (out : list tensor)
  (j : nat) :
  k < j <= k + length ys ->
  (forall i, k < i < j -> interrupt_at h i = false) ->
  interrupt_at h j = true ->
  consume from_numpy h k ys stop out
  = (loop_trace (j - k - 1) ++ [InterruptCheck], inl InterruptProcessingException).
Proof.
  revert k out; induction ys as [|y ys IH]; intros k out Hj Hlt Hint.
  - simpl in Hj. lia.
  - cbn [consume]. unfold throw_exception_if_processing_interrupted.
    destruct (Nat.eq_dec j (S k)) as [->|Hne].
    + rewrite Hint. replace (S k - k - 1) with 0 by lia. reflexivity.
    + rewrite (Hlt (S k)) by lia.
      rewrite (IH (S k)) by (simpl in Hj; first [lia | intros; apply Hlt; lia
                                                  | exact Hint]).
      replace (j - k - 1) with (S (j - S k - 1)) by lia.
      reflexivity.
Qed.

Lemma consume_some_interrupt (h : host) (k : nat)
  (ys : list (yielded tensor arr)) (stop : option exc) (out : list tensor)
  (j : nat) :
  k < j <= k + length ys -> interrupt_at h j = true ->
  snd (consume from_numpy h k ys stop out) = inl InterruptProcessingException.
Proof.
  revert k out; induction ys as [|y ys IH]; intros k out Hj Hint.
  - simpl in Hj. lia.
  - cbn [consume]. unfold throw_exception_if_processing_interrupted.
    destruct (interrupt_at h (S k)) eqn:Ek; [reflexivity|].
    destruct (Nat.eq_dec j (S k)) as [->|Hne]; [congruence|].
    simpl.
    pose proof (IH (S k) (out ++ [to_tensor from_numpy y])) as IH'.
    destruct (consume from_numpy h (S k) ys stop (out ++ [to_tensor from_numpy y]))
      as [w r].
    simpl in *. apply IH'; [lia | exact Hint].
Qed.

End LoopProofs.

Section RunProofs.

Variables tensor arr handle : Type.
Variable from_numpy : arr -> tensor.
Variable frame_shape : tensor -> list nat.
Variable irfm : list tensor -> nat -> handle -> list (yielded tensor arr) * option exc.

Local Abbreviation run := (do_interpolation from_numpy frame_shape irfm).

(** What follows the delegate call: the loop, [torch.cat] and the final logs. *)
Local Abbreviation tail h ys stop :=
  (bind (consume from_numpy h 0 ys stop [])
     (fun out => bind (lift (torch_cat_unsqueeze frame_shape out))
        (fun out => ([Log DEBUG (ReturningTensors (length out));
                      Log DEBUG (OutputShape (batch_shape frame_shape out));
                      Log DEBUG OutputType], inr out)))).

Lemma run_nonempty (h : host) (images : list tensor) (d : nat) (m : handle)
  (ys : list (yielded tensor arr)) (stop : option exc) :
  images <> [] -> irfm images d m = (ys, stop) ->
  run h images d m =
    ([ListGpus;
      if Nat.eqb (length (gpus h)) 0 then Log WARNING GpuNotAvailable
      else Log DEBUG (GpuAvailable (gpus h));
      Log DEBUG (WillInterpolate ((length images - 1) * (2 ^ d - 1)));
      PbarNew ((length images - 1) * (2 ^ d - 1));
      DelegateStart] ++ fst (tail h ys stop),
     snd (tail h ys stop)).
Proof.
  intros Hne Hirfm. unfold do_interpolation.
  destruct images as [|i0 images']; [congruence|].
  cbn [length Nat.eqb]. rewrite Hirfm.
  destruct (Nat.eqb (length (gpus h)) 0).
  all: destruct (consume from_numpy h 0 ys stop []) as [w [e|out]];
       [reflexivity|];
       simpl; destruct (torch_cat_unsqueeze frame_shape out); reflexivity.
Qed.

Lemma torch_cat_unsqueeze_inr (ts b : list tensor) :
  torch_cat_unsqueeze frame_shape ts = inr b -> b = ts /\ ts <> [].
Proof.
  unfold torch_cat_unsqueeze. destruct ts as [|t ts']; [discriminate|].
  destruct (forallb _ _); intros H; inversion H; split; [reflexivity | discriminate].
Qed.

Lemma tail_inr (h : host) (ys : list (yielded tensor arr)) (stop : option exc)
  (b : list tensor) :
  snd (tail h ys stop) = inr b ->
  stop = None /\
  (forall i, 0 < i <= length ys -> interrupt_at h i = false) /\
  b = map (to_tensor from_numpy) ys /\
  fst (tail h ys stop) =
    loop_trace (length ys) ++
    [Log DEBUG (ReturningTensors (length b));
     Log DEBUG (OutputShape (batch_shape frame_shape b));
     Log DEBUG OutputType].
Proof.
  intros H.
  destruct (consume from_numpy h 0 ys stop []) as [w r] eqn:E.
  destruct r as [e|out]; [rewrite bind_inl in H; discriminate|].
  assert (Hr : snd (consume from_numpy h 0 ys stop []) = inr out)
    by (rewrite E; reflexivity).
  destruct (consume_inr _ _ from_numpy h 0 ys stop [] out Hr) as [-> Hi].
  rewrite consume_all in E by exact Hi.
  injection E as <- <-.
  rewrite bind_inr in H |- *. simpl in H |- *.
  destruct (torch_cat_unsqueeze frame_shape (map (to_tensor from_numpy) ys))
    as [e|b'] eqn:Ec; [discriminate|].
  injection H as ->.
  apply torch_cat_unsqueeze_inr in Ec as [-> _].
  split; [reflexivity|]. split; [exact Hi|]. split; [reflexivity|].
  simpl. rewrite ?app_nil_r. reflexivity.
Qed.

Lemma tail_first_interrupt (h : host) (ys : list (yielded tensor arr))
  (stop : option exc) (j : nat) :
  0 < j <= length ys ->
  (forall i, 0 < i < j -> interrupt_at h i = false) ->
  interrupt_at h j = true ->
  tail h ys stop =
    (loop_trace (j - 1) ++ [InterruptCheck], inl InterruptProcessingException).
Proof.
  intros Hj Hlt Hint.
  rewrite (consume_first_interrupt _ _ from_numpy h 0 ys stop [] j) by assumption.
  rewrite Nat.sub_0_r. reflexivity.
Qed.

Lemma tail_some_interrupt (h : host) (ys : list (yielded tensor arr))
  (stop : option exc) (j : nat) :
  0 < j <= length ys -> interrupt_at h j = true ->
  snd (tail h ys stop) = inl InterruptProcessingException.
Proof.
  intros Hj Hint.
  pose proof (consume_some_interrupt _ _ from_numpy h 0 ys stop [] j Hj Hint) as H.
  destruct (consume from_numpy h 0 ys stop []) as [w r].
  simpl in H. subst r. reflexivity.
Qed.

Lemma length_flat_map_const {A B} (f : A -> list B) (c : nat) (l : list A) :
  (forall a, length (f a) = c) -> length (flat_map f l) = length l * c.
Proof.
  intros Hf. induction l as [|a l IH]; [reflexivity|].
  simpl. rewrite length_app, Hf, IH. reflexivity.
Qed.

Lemma length_adjacent_pairs {A} (l : list A) :
  length (combine l (tl l)) = length l - 1.
Proof.
  rewrite length_combine. destruct l as [|a l]; [reflexivity|].
  cbn [tl length]. rewrite Nat.sub_succ, Nat.sub_0_r. apply Nat.min_r. lia.
Qed.

Lemma consume_gpus (g1 g2 : list string) (intr : nat -> bool) (k : nat)
  (ys : list (yielded tensor arr)) (stop : option exc) (out : list tensor) :
  consume from_numpy (mkHost g1 intr) k ys stop out
  = consume from_numpy (mkHost g2 intr) k ys stop out.
Proof.
  revert k out; induction ys as [|y ys IH]; intros k out; [reflexivity|].
  cbn [consume]. unfold throw_exception_if_processing_interrupted.
  cbn [interrupt_at]. rewrite IH. reflexivity.
Qed.

(** ** Claims about [FilmInterpolation.do_interpolation] *)

(** C2: when the delegate yields exactly [2^d - 1] frames for each adjacent
    pair of the input batch, a batch returned by the node has
    [(n - 1) * (2^d - 1)] images, and they are the delegate's frames only: no
    input frame is inserted by the node. *)
Theorem run_output_length (h : host) (images : list tensor) (d : nat)
  (m : handle) (per_pair : tensor -> tensor -> list (yielded tensor arr))
  (stop : option exc) (b : list tensor) :
  (forall a c, length (per_pair a c) = 2 ^ d - 1) ->
  irfm images d m =
    (flat_map (fun '(a, c) => per_pair a c) (combine images (tl images)), stop) ->
  snd (run h images d m) = inr b ->
  length b = (length images - 1) * (2 ^ d - 1) /\
  b = map (to_tensor from_numpy)
        (flat_map (fun '(a, c) => per_pair a c) (combine images (tl images))).
Proof.
  intros Hlen Hirfm Hrun.
  destruct images as [|i0 images'].
  - simpl in Hrun. injection Hrun as <-. split; reflexivity.
  - rewrite (run_nonempty h (i0 :: images') d m _ stop ltac:(discriminate) Hirfm)
      in Hrun.
    cbn [snd] in Hrun.
    destruct (tail_inr _ _ _ _ Hrun) as (_ & _ & -> & _).
    split; [|reflexivity].
    rewrite length_map, (length_flat_map_const _ (2 ^ d - 1)),
      length_adjacent_pairs; [reflexivity|].
    intros [a c]. apply Hlen.
Qed.

(** C3: on an empty batch the node returns that batch at once: no event at
    all (no GPU query, no progress bar, no delegate call), progress 0. *)
Theorem run_empty_batch (h : host) (d : nat) (m : handle) :
  run h [] d m = ([], inr []) /\ progress (fst (run h [] d m)) = 0.
Proof. split; reflexivity. Qed.

(** C4: when the interrupt flag is observed after the [k]-th frame yielded
    by the delegate, the node raises [InterruptProcessingException] (the
    host's cancellation exception) and returns no batch. *)
Theorem run_cancelled_no_output (h : host) (images : list tensor) (d : nat)
  (m : handle) (ys : list (yielded tensor arr)) (stop : option exc) (k : nat) :
  images <> [] -> irfm images d m = (ys, stop) ->
  1 <= k <= length ys -> interrupt_at h k = true ->
  snd (run h images d m) = inl InterruptProcessingException /\
  (forall b, snd (run h images d m) <> inr b).
Proof.
  intros Hne Hirfm Hk Hint.
  rewrite (run_nonempty h images d m ys stop Hne Hirfm). cbn [snd].
  rewrite (tail_some_interrupt h ys stop k) by (assumption || lia).
  split; [reflexivity | discriminate].
Qed.


(** C6: a batch returned by the node is the list of the frames the delegate
    yielded, each converted by [to_tensor], in yield order (on an empty input
    the delegate is not called and the batch is empty). *)
Theorem run_output_order (h : host) (images : list tensor) (d : nat)
  (m : handle) (b : list tensor) :
  snd (run h images d m) = inr b ->
  let ys := if Nat.eqb (length images) 0 then [] else fst (irfm images d m) in
  b = map (to_tensor from_numpy) ys /\
  (forall i, nth_error b i = option_map (to_tensor from_numpy) (nth_error ys i)).
Proof.
  intros Hrun ys.
  assert (Hb : b = map (to_tensor from_numpy) ys).
  { subst ys. destruct images as [|i0 images'].
    - simpl in Hrun. injection Hrun as <-. reflexivity.
    - destruct (irfm (i0 :: images') d m) as [ys' stop] eqn:E.
      rewrite (run_nonempty h (i0 :: images') d m ys' stop ltac:(discriminate) E)
        in Hrun.
      cbn [snd] in Hrun.
      destruct (tail_inr _ _ _ _ Hrun) as (_ & _ & -> & _).
      reflexivity. }
  split; [exact Hb|]. intros i. subst b. apply nth_error_map.
Qed.

(** C8: when the interrupt flag is first observed at the [k]-th yielded
    frame, the node raises after exactly [k - 1] progress increments: the
    check of a frame comes after its append and before its [pbar.update],
    so the trace ends with that check. *)
Theorem run_cancel_progress (h : host) (images : list tensor) (d : nat)
  (m : handle) (ys : list (yielded tensor arr)) (stop : option exc) (k : nat) :
  images <> [] -> irfm images d m = (ys, stop) ->
  1 <= k <= length ys ->
  (forall i, 1 <= i < k -> interrupt_at h i = false) ->
  interrupt_at h k = true ->
  snd (run h images d m) = inl InterruptProcessingException /\
  progress (fst (run h images d m)) = k - 1 /\
  exists pre, fst (run h images d m) = pre ++ [InterruptCheck].
Proof.
  intros Hne Hirfm Hk Hlt Hint.
  rewrite (run_nonempty h images d m ys stop Hne Hirfm).
  rewrite (tail_first_interrupt h ys stop k) by (lia || assumption
                                                || (intros; apply Hlt; lia)).
  cbn [fst snd]. split; [reflexivity|]. split.
  - rewrite !progress_app, progress_loop_trace.
    destruct (Nat.eqb (length (gpus h)) 0); simpl; lia.
  - eexists. rewrite app_assoc. reflexivity.
Qed.

(** C10: the GPU preflight only logs: two runs that differ only in the
    devices tensorflow reports return the same result, and their traces
    agree once the preflight's log line is removed. *)
Theorem run_gpu_independent (g1 g2 : list string) (intr : nat -> bool)
  (images : list tensor) (d : nat) (m : handle) :
  snd (run (mkHost g1 intr) images d m) = snd (run (mkHost g2 intr) images d m) /\
  filter (fun ev => negb (is_gpu_log ev)) (fst (run (mkHost g1 intr) images d m))
  = filter (fun ev => negb (is_gpu_log ev)) (fst (run (mkHost g2 intr) images d m)).
Proof.
  destruct images as [|i0 images']; [split; reflexivity|].
  destruct (irfm (i0 :: images') d m) as [ys stop] eqn:E.
  rewrite !(run_nonempty _ (i0 :: images') d m ys stop ltac:(discriminate) E).
  cbn [fst snd].
  rewrite (consume_gpus g1 g2 intr 0 ys stop []).
  split; [reflexivity|].
  rewrite !filter_app. f_equal.
  cbn [gpus].
  destruct (Nat.eqb (length g1) 0), (Nat.eqb (length g2) 0); reflexivity.
Qed.

End RunProofs.

(** ** Claims about [LoadFilmModel.load_model] *)

Lemma parent_closed_exists (fs : fs_t) (p : path) (s : string) :
  p <> [] -> parent_closed fs = true ->
  path_exists fs (p ++ [s]) = true -> path_exists fs p = true.
Proof.
  unfold parent_closed. intros Hp Hc He.
  unfold path_exists in He.
  apply existsb_exists in He as [q [Hq Heq]].
  destruct (list_eq_dec string_dec (p ++ [s]) q) as [<-|]; [|discriminate].
  rewrite forallb_forall in Hc. specialize (Hc _ Hq).
  rewrite removelast_last in Hc.
  destruct p; [contradiction | exact Hc].
Qed.

Section LoadProofs.

Variable handle : Type.
Variable Interpolator : string -> exc + handle.

(** C7: the model path is [<models_dir>/FILM/<film_model>] when that
    directory holds [saved_model.pb], and its [saved_model] subdirectory
    otherwise; when it exists, the resolved path is logged and only then is
    the FILM [Interpolator] built on it. *)
Theorem load_model_resolution (models_dir : path) (fs : fs_t)
  (film_model : string) :
  let model_dir := models_dir ++ ["FILM"; film_model] in
  let resolved :=
    if path_exists fs (model_dir ++ ["saved_model.pb"]) then model_dir
    else model_dir ++ ["saved_model"] in
  load_model Interpolator models_dir fs film_model =
    if path_exists fs resolved then
      ([Log INFO (LoadingModel (as_posix resolved));
        InterpolatorNew (as_posix resolved)],
       Interpolator (as_posix resolved))
    else
      ([Log ERROR (ModelDoesNotExist (as_posix resolved))],
       inl (ValueError ("Model " ++ as_posix resolved ++ " does not exist")%string)).
Proof.
  intros model_dir resolved. unfold load_model.
  fold model_dir.
  replace (if negb (path_exists fs (model_dir ++ ["saved_model.pb"]))
           then model_dir ++ ["saved_model"] else model_dir) with resolved
    by (unfold resolved; destruct (path_exists _ _); reflexivity).
  destruct (path_exists fs resolved); simpl; [|reflexivity].
  destruct (Interpolator (as_posix resolved)); reflexivity.
Qed.

(** C1: on a well-formed filesystem, [load_model] fails with its not-found
    error, [ValueError("Model <path> does not exist")], exactly when neither
    [<dir>/saved_model.pb] nor the fallback [<dir>/saved_model] exists; this
    is the only error it raises itself: any other failure is the exception
    of the FILM [Interpolator], passed through unchanged. *)
Theorem load_model_errors (models_dir : path) (fs : fs_t)
  (film_model : string) (e : exc) :
  parent_closed fs = true ->
  let model_dir := models_dir ++ ["FILM"; film_model] in
  let resolved :=
    if path_exists fs (model_dir ++ ["saved_model.pb"]) then model_dir
    else model_dir ++ ["saved_model"] in
  snd (load_model Interpolator models_dir fs film_model) = inl e <->
  (path_exists fs (model_dir ++ ["saved_model.pb"]) = false /\
   path_exists fs (model_dir ++ ["saved_model"]) = false /\
   e = ValueError (String.append "Model "
                     (String.append (as_posix (model_dir ++ ["saved_model"]))
                        " does not exist")))
  \/
  ((path_exists fs (model_dir ++ ["saved_model.pb"]) = true \/
    path_exists fs (model_dir ++ ["saved_model"]) = true) /\
   Interpolator (as_posix resolved) = inl e).
Proof.
  intros Hc model_dir resolved.
  rewrite (load_model_resolution models_dir fs film_model). fold model_dir.
  fold resolved.
  unfold resolved.
  destruct (path_exists fs (model_dir ++ ["saved_model.pb"])) eqn:Em.
  - assert (Hd : path_exists fs model_dir = true)
      by (apply (parent_closed_exists fs model_dir "saved_model.pb");
          [unfold model_dir; destruct models_dir; discriminate | assumption..]).
    rewrite Hd. cbn [snd]. split.
    + intros H. right. split; [left; reflexivity | exact H].
    + intros [(H & _) | (_ & H)]; [discriminate | exact H].
  - destruct (path_exists fs (model_dir ++ ["saved_model"])) eqn:Ef; cbn [snd].
    + split.
      * intros H. right. split; [right; reflexivity | exact H].
      * intros [(_ & H & _) | (_ & H)]; [discriminate | exact H].
    + split.
      * intros H. injection H as <-. left. split; [reflexivity|].
        split; reflexivity.
      * intros [(_ & _ & ->) | ([H|H] & _)]; [reflexivity | discriminate
                                              | discriminate].
Qed.

End LoadProofs.

(** ** Claim about the declared input schemas *)

(** C9: [LoadFilmModel] admits for [film_model] exactly the three presets
    ["L1"], ["Style"], ["VGG"], with default ["Style"]; [FilmInterpolation]
    admits for [interpolate] exactly the integers of [1, 50]. *)
Theorem input_schemas_restrict :
  (exists dl,
     required_input LoadFilmModel_INPUT_TYPES "film_model" = Some dl /\
     (forall v, admits dl v = true <->
                In v [VStr "L1"; VStr "Style"; VStr "VGG"]) /\
     (exists opts, dl = Choice opts "Style") /\
     admits dl (VStr "Style") = true) /\
  (exists di,
     required_input FilmInterpolation_INPUT_TYPES "interpolate" = Some di /\
     (forall v, admits di v = true <-> exists z, v = VInt z /\ (1 <= z <= 50)%Z)).
Proof.
  split.
  - eexists. split; [reflexivity|]. split; [|split; [eexists; reflexivity
                                                     | reflexivity]].
    intros v. destruct v as [s|z|t]; simpl.
    + rewrite !orb_true_iff, !String.eqb_eq. split.
      * intros [->|[->|[->|H]]]; auto; discriminate.
      * intros [H|[H|[H|[]]]]; injection H as ->; auto.
    + split; [discriminate|]. intros [H|[H|[H|[]]]]; discriminate.
    + split; [discriminate|]. intros [H|[H|[H|[]]]]; discriminate.
  - eexists. split; [reflexivity|].
    intros v. destruct v as [s|z|t]; simpl.
    + split; [discriminate|]. intros [z [H _]]; discriminate.
    + rewrite andb_true_iff, !Z.leb_le. split.
      * intros H. exists z. split; [reflexivity | exact H].
      * intros [z' [H Hr]]. injection H as ->. exact Hr.
    + split; [discriminate|]. intros [z [H _]]; discriminate.
Qed.

(** ** Witnesses and counterexamples on concrete inputs *)

(** C2 at three images, depth 2, no interrupt. *)
Lemma run_output_length_witness :
  (forall a c, length (stub_pair a c) = 2 ^ 2 - 1) /\
  stub_delegate [1; 2; 3] 2 tt =
    (flat_map (fun '(a, c) => stub_pair a c) (combine [1; 2; 3] (tl [1; 2; 3])),
     None) /\
  snd (stub_run quiet_host [1; 2; 3] 2) = inr [1011; 12; 1013; 1021; 22; 1023] /\
  (length [1011; 12; 1013; 1021; 22; 1023] = (length [1; 2; 3] - 1) * (2 ^ 2 - 1) /\
   [1011; 12; 1013; 1021; 22; 1023] =
     map (to_tensor stub_from_numpy)
       (flat_map (fun '(a, c) => stub_pair a c) (combine [1; 2; 3] (tl [1; 2; 3])))).
Proof.
  assert (H1 : forall a c, length (stub_pair a c) = 2 ^ 2 - 1)
    by (intros; reflexivity).
  assert (H2 : stub_delegate [1; 2; 3] 2 tt =
    (flat_map (fun '(a, c) => stub_pair a c) (combine [1; 2; 3] (tl [1; 2; 3])),
     None)) by reflexivity.
  assert (H3 : snd (stub_run quiet_host [1; 2; 3] 2)
               = inr [1011; 12; 1013; 1021; 22; 1023]) by reflexivity.
  exact (conj H1 (conj H2 (conj H3
    (run_output_length nat nat unit stub_from_numpy stub_shape stub_delegate
       quiet_host [1; 2; 3] 2 tt stub_pair None _ H1 H2 H3)))).
Defined.

(** C4 at three images, depth 2, the flag observed at the second frame. *)
Lemma run_cancelled_no_output_witness :
  [1; 2; 3] <> [] /\
  stub_delegate [1; 2; 3] 2 tt = (fst (stub_delegate [1; 2; 3] 2 tt), None) /\
  1 <= 2 <= length (fst (stub_delegate [1; 2; 3] 2 tt)) /\
  interrupt_at cancel_host 2 = true /\
  (snd (stub_run cancel_host [1; 2; 3] 2) = inl InterruptProcessingException /\
   (forall b, snd (stub_run cancel_host [1; 2; 3] 2) <> inr b)).
Proof.
  assert (H1 : [1; 2; 3] <> []) by discriminate.
  assert (H2 : stub_delegate [1; 2; 3] 2 tt
               = (fst (stub_delegate [1; 2; 3] 2 tt), None)) by reflexivity.
  assert (H3 : 1 <= 2 <= length (fst (stub_delegate [1; 2; 3] 2 tt)))
    by (simpl; lia).
  assert (H4 : interrupt_at cancel_host 2 = true) by reflexivity.
  exact (conj H1 (conj H2 (conj H3 (conj H4
    (run_cancelled_no_output nat nat unit stub_from_numpy stub_shape
       stub_delegate cancel_host [1; 2; 3] 2 tt _ None 2 H1 H2 H3 H4))))).
Defined.



(** C6 at three images, depth 2, no interrupt. *)
Lemma run_output_order_witness :
  snd (stub_run quiet_host [1; 2; 3] 2) = inr [1011; 12; 1013; 1021; 22; 1023] /\
  (let ys := if Nat.eqb (length [1; 2; 3]) 0 then []
             else fst (stub_delegate [1; 2; 3] 2 tt) in
   [1011; 12; 1013; 1021; 22; 1023] = map (to_tensor stub_from_numpy) ys /\
   (forall i, nth_error [1011; 12; 1013; 1021; 22; 1023] i
              = option_map (to_tensor stub_from_numpy) (nth_error ys i))).
Proof.
  assert (H1 : snd (stub_run quiet_host [1; 2; 3] 2)
               = inr [1011; 12; 1013; 1021; 22; 1023]) by reflexivity.
  exact (conj H1
    (run_output_order nat nat unit stub_from_numpy stub_shape stub_delegate
       quiet_host [1; 2; 3] 2 tt _ H1)).
Defined.

(** C8 at three images, depth 2, the flag first observed at the second frame. *)
Lemma run_cancel_progress_witness :
  [1; 2; 3] <> [] /\
  stub_delegate [1; 2; 3] 2 tt = (fst (stub_delegate [1; 2; 3] 2 tt), None) /\
  1 <= 2 <= length (fst (stub_delegate [1; 2; 3] 2 tt)) /\
  (forall i, 1 <= i < 2 -> interrupt_at cancel_host i = false) /\
  interrupt_at cancel_host 2 = true /\
  (snd (stub_run cancel_host [1; 2; 3] 2) = inl InterruptProcessingException /\
   progress (fst (stub_run cancel_host [1; 2; 3] 2)) = 2 - 1 /\
   exists pre, fst (stub_run cancel_host [1; 2; 3] 2) = pre ++ [InterruptCheck]).
Proof.
  assert (H1 : [1; 2; 3] <> []) by discriminate.
  assert (H2 : stub_delegate [1; 2; 3] 2 tt
               = (fst (stub_delegate [1; 2; 3] 2 tt), None)) by reflexivity.
  assert (H3 : 1 <= 2 <= length (fst (stub_delegate [1; 2; 3] 2 tt)))
    by (simpl; lia).
  assert (H4 : forall i, 1 <= i < 2 -> interrupt_at cancel_host i = false)
    by (intros i Hi; replace i with 1 by lia; reflexivity).
  assert (H5 : interrupt_at cancel_host 2 = true) by reflexivity.
  exact (conj H1 (conj H2 (conj H3 (conj H4 (conj H5
    (run_cancel_progress nat nat unit stub_from_numpy stub_shape stub_delegate
       cancel_host [1; 2; 3] 2 tt _ None 2 H1 H2 H3 H4 H5)))))).
Defined.

(** C1 on a well-formed filesystem where the ["VGG"] preset is missing. *)
Lemma load_model_errors_witness :
  parent_closed film_fs = true /\
  (snd (load_model stub_interpolator film_models_dir film_fs "VGG")
     = inl (ValueError "Model /models/FILM/VGG/saved_model does not exist") <->
   (path_exists film_fs (film_models_dir ++ ["FILM"; "VGG"] ++ ["saved_model.pb"])
      = false /\
    path_exists film_fs (film_models_dir ++ ["FILM"; "VGG"] ++ ["saved_model"])
      = false /\
    ValueError "Model /models/FILM/VGG/saved_model does not exist" =
      ValueError (String.append "Model "
        (String.append
           (as_posix ((film_models_dir ++ ["FILM"; "VGG"]) ++ ["saved_model"]))
           " does not exist")))
   \/
   ((path_exists film_fs ((film_models_dir ++ ["FILM"; "VGG"]) ++ ["saved_model.pb"])
       = true \/
     path_exists film_fs ((film_models_dir ++ ["FILM"; "VGG"]) ++ ["saved_model"])
       = true) /\
    stub_interpolator
      (as_posix
         (if path_exists film_fs
               ((film_models_dir ++ ["FILM"; "VGG"]) ++ ["saved_model.pb"])
          then film_models_dir ++ ["FILM"; "VGG"]
          else (film_models_dir ++ ["FILM"; "VGG"]) ++ ["saved_model"]))
      = inl (ValueError "Model /models/FILM/VGG/saved_model does not exist"))).
Proof.
  assert (H1 : parent_closed film_fs = true) by reflexivity.
  exact (conj H1
    (load_model_errors string stub_interpolator film_models_dir film_fs "VGG"
       (ValueError "Model /models/FILM/VGG/saved_model does not exist") H1)).
Defined.

(** ** [LoadFilmModel.get_models] *)

Lemma strip_prefix_spec (dir q r : path) :
  strip_prefix dir q = Some r <-> q = dir ++ r.
Proof.
  revert q; induction dir as [|d dir IH]; intros q; simpl.
  - split; [intros H; injection H as ->; reflexivity | intros ->; reflexivity].
  - destruct q as [|x q]; [split; discriminate|].
    destruct (string_dec d x) as [->|Hne].
    + rewrite IH. split; [intros ->; reflexivity | intros H; injection H; auto].
    + split; [discriminate | intros H; injection H; congruence].
Qed.

Lemma string_append_assoc (x y z : string) :
  String.append x (String.append y z) = String.append (String.append x y) z.
Proof. induction x as [|c x IH]; simpl; [reflexivity | rewrite IH; reflexivity]. Qed.

Lemma list_ascii_append (x y : string) :
  list_ascii_of_string (String.append x y)
  = list_ascii_of_string x ++ list_ascii_of_string y.
Proof. induction x as [|c x IH]; simpl; [reflexivity | rewrite IH; reflexivity]. Qed.

Lemma ascii_prefixb_app (p l l' : list ascii) :
  length p <= length l -> ascii_prefixb p (l ++ l') = ascii_prefixb p l.
Proof.
  revert l; induction p as [|a p IH]; intros l Hl; [destruct l; reflexivity|].
  destruct l as [|b l]; simpl in Hl; [lia|].
  simpl. rewrite IH by lia. reflexivity.
Qed.

(** A suffix no longer than [y] is decided by [y] alone. *)
Lemma endswith_append (x y suffix : string) :
  length (list_ascii_of_string suffix) <= length (list_ascii_of_string y) ->
  endswith (String.append x y) suffix = endswith y suffix.
Proof.
  intros Hl. unfold endswith.
  rewrite list_ascii_append, rev_app_distr, ascii_prefixb_app; [reflexivity|].
  rewrite !length_rev. exact Hl.
Qed.

Lemma as_posix_last2 (l : path) (a b : string) :
  exists pre, as_posix (l ++ [a; b])
              = String.append pre (String.append a (String.append "/" b)).
Proof.
  induction l as [|x l [pre IH]].
  - exists "". reflexivity.
  - exists (String.append x (String.append "/" pre)).
    unfold as_posix in *. cbn [app].
    replace (String.concat "/" (x :: l ++ [a; b]))
      with (String.append x (String.append "/" (String.concat "/" (l ++ [a; b]))))
      by (destruct l; reflexivity).
    rewrite IH, !string_append_assoc. reflexivity.
Qed.

(** Membership in [get_models], unfolded. *)
Lemma get_models_In (models_dir : path) (fs : fs_t) (q : path) :
  In q (get_models models_dir fs) <->
  In q fs /\
  (exists name, q = models_dir ++ ["FILM"; name] /\ is_hidden name = false) /\
  (endswith (as_posix q) ".onnx" || endswith (as_posix q) ".pth") = true.
Proof.
  unfold get_models, glob_star. rewrite !filter_In. split.
  - intros [[Hin Hm] He]. split; [exact Hin|]. split; [|exact He].
    destruct (strip_prefix (models_dir ++ ["FILM"]) q) as [r|] eqn:E;
      [|discriminate].
    destruct r as [|name [|x r]]; try discriminate.
    apply strip_prefix_spec in E. subst q.
    exists name. rewrite <- app_assoc. split; [reflexivity|].
    apply negb_true_iff. exact Hm.
  - intros (Hin & (name & -> & Hh) & He). split; [split; [exact Hin|] | exact He].
    replace (models_dir ++ ["FILM"; name])
      with ((models_dir ++ ["FILM"]) ++ [name]) by (rewrite <- app_assoc; reflexivity).
    rewrite (proj2 (strip_prefix_spec _ _ [name]) eq_refl).
    rewrite Hh. reflexivity.
Qed.

(** [get_models] never lists the SavedModel presets ["L1"], ["Style"],
    ["VGG"] that [load_model] is offered: their paths end with neither
    [.onnx] nor [.pth]. *)
Theorem get_models_no_presets (models_dir : path) (fs : fs_t) (q : path)
  (name : string) :
  In q (get_models models_dir fs) -> In name ["L1"; "Style"; "VGG"] ->
  q <> models_dir ++ ["FILM"; name].
Proof.
  intros Hq Hn ->.
  apply get_models_In in Hq as (_ & _ & He).
  destruct (as_posix_last2 models_dir "FILM" name) as [pre Hp].
  rewrite Hp in He.
  rewrite (endswith_append pre _ ".onnx"), (endswith_append pre _ ".pth") in He
    by (destruct Hn as [<-|[<-|[<-|[]]]]; simpl; lia).
  destruct Hn as [<-|[<-|[<-|[]]]]; vm_compute in He; discriminate.
Qed.

(** ** More of [FilmInterpolation.do_interpolation]: its error paths *)

Section RunErrorProofs.

Variables tensor arr handle : Type.
Variable from_numpy : arr -> tensor.
Variable frame_shape : tensor -> list nat.
Variable irfm : list tensor -> nat -> handle -> list (yielded tensor arr) * option exc.

Local Abbreviation run := (do_interpolation from_numpy frame_shape irfm).

Lemma consume_stop (h : host) (k : nat) (ys : list (yielded tensor arr))
  (stop : option exc) (out : list tensor) :
  (forall i, k < i <= k + length ys -> interrupt_at h i = false) ->
  consume from_numpy h k ys stop out
  = (loop_trace (length ys),
     match stop with
     | None => inr (out ++ map (to_tensor from_numpy) ys)
     | Some e => inl e
     end).
Proof.
  revert k out; induction ys as [|y ys IH]; intros k out Hi.
  - simpl. rewrite app_nil_r. destruct stop; reflexivity.
  - cbn [consume]. unfold throw_exception_if_processing_interrupted.
    rewrite (Hi (S k)) by (simpl; lia).
    rewrite IH by (intros i Hr; apply Hi; simpl; lia).
    simpl. rewrite <- app_assoc. reflexivity.
Qed.

Lemma consume_no_gpu_log (h : host) (k : nat) (ys : list (yielded tensor arr))
  (stop : option exc) (out : list tensor) :
  filter is_gpu_log (fst (consume from_numpy h k ys stop out)) = [].
Proof.
  revert k out; induction ys as [|y ys IH]; intros k out.
  - simpl. destruct stop; reflexivity.
  - cbn [consume]. unfold throw_exception_if_processing_interrupted.
    destruct (interrupt_at h (S k)); [reflexivity|].
    specialize (IH (S k) (out ++ [to_tensor from_numpy y])).
    simpl. destruct (consume from_numpy h (S k) ys stop _) as [w r].
    exact IH.
Qed.

Lemma torch_cat_uniform (ts b : list tensor) :
  torch_cat_unsqueeze frame_shape ts = inr b ->
  exists t0 rest, b = t0 :: rest /\
                  Forall (fun t => frame_shape t = frame_shape t0) b.
Proof.
  unfold torch_cat_unsqueeze. destruct ts as [|t ts']; [discriminate|].
  destruct (forallb _ _) eqn:E; intros H; [|discriminate].
  injection H as <-. exists t, ts'. split; [reflexivity|].
  apply Forall_forall. intros u Hu.
  rewrite forallb_forall in E. specialize (E u Hu).
  unfold shape_eqb in E. destruct (list_eq_dec _ _ _); [assumption | discriminate].
Qed.

(** An exception raised by the FILM generator after its frames propagates
    unchanged out of the node, after one progress step per frame it
    yielded (when no interrupt was observed). *)
Theorem run_delegate_error (h : host) (images : list tensor) (d : nat)
  (m : handle) (ys : list (yielded tensor arr)) (e : exc) :
  images <> [] -> irfm images d m = (ys, Some e) ->
  (forall i, 1 <= i <= length ys -> interrupt_at h i = false) ->
  snd (run h images d m) = inl e /\ progress (fst (run h images d m)) = length ys.
Proof.
  intros Hne Hirfm Hi.
  rewrite (run_nonempty _ _ _ _ _ _ h images d m ys (Some e) Hne Hirfm).
  rewrite (consume_stop h 0 ys (Some e) []) by (intros; apply Hi; lia).
  rewrite bind_inl. cbn [fst snd]. split; [reflexivity|].
  rewrite progress_app, progress_loop_trace.
  destruct (Nat.eqb (length (gpus h)) 0); reflexivity.
Qed.

(** When the FILM generator yields nothing on a non-empty batch, the node
    raises the [ValueError] of [torch.cat] on an empty list, with no
    progress step. *)
Theorem run_no_frames (h : host) (images : list tensor) (d : nat) (m : handle) :
  images <> [] -> irfm images d m = ([], None) ->
  snd (run h images d m)
    = inl (ValueError "torch.cat(): expected a non-empty list of Tensors") /\
  progress (fst (run h images d m)) = 0.
Proof.
  intros Hne Hirfm.
  rewrite (run_nonempty _ _ _ _ _ _ h images d m [] None Hne Hirfm).
  destruct (Nat.eqb (length (gpus h)) 0); split; reflexivity.
Qed.

(** A batch the node returns for a non-empty input is non-empty and all
    its images have the shape of the first one. *)
Theorem run_batch_uniform (h : host) (images : list tensor) (d : nat)
  (m : handle) (b : list tensor) :
  images <> [] -> snd (run h images d m) = inr b ->
  exists t0 rest, b = t0 :: rest /\
                  Forall (fun t => frame_shape t = frame_shape t0) b.
Proof.
  intros Hne Hrun.
  destruct (irfm images d m) as [ys stop] eqn:E.
  rewrite (run_nonempty _ _ _ _ _ _ h images d m ys stop Hne E) in Hrun.
  cbn [snd] in Hrun.
  destruct (consume from_numpy h 0 ys stop []) as [w [e|out]];
    [rewrite bind_inl in Hrun; discriminate|].
  rewrite bind_inr in Hrun. cbn [snd] in Hrun. simpl in Hrun.
  destruct (torch_cat_unsqueeze frame_shape out) as [e|b'] eqn:Ec;
    [discriminate|].
  injection Hrun as <-. exact (torch_cat_uniform _ _ Ec).
Qed.

(** Two yielded frames of different shapes make [torch.cat] raise: the
    node fails instead of returning a ragged batch. *)
Theorem run_mixed_shapes (h : host) (images : list tensor) (d : nat)
  (m : handle) (ys : list (yielded tensor arr)) (y1 y2 : yielded tensor arr) :
  images <> [] -> irfm images d m = (ys, None) ->
  (forall i, 1 <= i <= length ys -> interrupt_at h i = false) ->
  In y1 ys -> In y2 ys ->
  frame_shape (to_tensor from_numpy y1) <> frame_shape (to_tensor from_numpy y2) ->
  snd (run h images d m) = inl (RuntimeError "Sizes of tensors must match").
Proof.
  intros Hne Hirfm Hi H1 H2 Hs.
  rewrite (run_nonempty _ _ _ _ _ _ h images d m ys None Hne Hirfm).
  rewrite (consume_stop h 0 ys None []) by (intros; apply Hi; lia).
  rewrite bind_inr. cbn [snd app]. simpl.
  destruct ys as [|y0 ys']; [destruct H1|].
  unfold torch_cat_unsqueeze. cbn [map].
  destruct (forallb _ _) eqn:E; [|reflexivity].
  exfalso. apply Hs. rewrite forallb_forall in E.
  assert (Hy : forall y, In y (y0 :: ys') ->
    frame_shape (to_tensor from_numpy y) = frame_shape (to_tensor from_numpy y0)).
  { intros y Hy. specialize (E (to_tensor from_numpy y)
      (in_map (to_tensor from_numpy) _ _ Hy)).
    unfold shape_eqb in E. destruct (list_eq_dec _ _ _); [assumption|discriminate]. }
  rewrite (Hy y1 H1), (Hy y2 H2). reflexivity.
Qed.

(** On a non-empty batch the GPU preflight writes exactly one log line, and
    it is the "not available" warning iff tensorflow reports no GPU. *)
Theorem run_gpu_log (h : host) (images : list tensor) (d : nat) (m : handle) :
  images <> [] ->
  length (filter is_gpu_log (fst (run h images d m))) = 1 /\
  (In (Log WARNING GpuNotAvailable) (fst (run h images d m)) <-> gpus h = []).
Proof.
  intros Hne.
  destruct (irfm images d m) as [ys stop] eqn:E.
  rewrite (run_nonempty _ _ _ _ _ _ h images d m ys stop Hne E). cbn [fst].
  assert (Ht : filter is_gpu_log
    (fst (bind (consume from_numpy h 0 ys stop [])
      (fun out => bind (lift (torch_cat_unsqueeze frame_shape out))
        (fun out => ([Log DEBUG (ReturningTensors (length out));
                      Log DEBUG (OutputShape (batch_shape frame_shape out));
                      Log DEBUG OutputType], inr out))))) = []).
  { pose proof (consume_no_gpu_log h 0 ys stop []) as Hc.
    destruct (consume from_numpy h 0 ys stop []) as [w [e|out]];
      [exact Hc|].
    cbn [fst] in Hc. rewrite bind_inr. cbn [fst]. rewrite filter_app, Hc. simpl.
    destruct (torch_cat_unsqueeze frame_shape out); reflexivity. }
  assert (Hnot : ~ In (Log WARNING GpuNotAvailable)
    (fst (bind (consume from_numpy h 0 ys stop [])
      (fun out => bind (lift (torch_cat_unsqueeze frame_shape out))
        (fun out => ([Log DEBUG (ReturningTensors (length out));
                      Log DEBUG (OutputShape (batch_shape frame_shape out));
                      Log DEBUG OutputType], inr out)))))).
  { intros Hin. assert (Hf : In (Log WARNING GpuNotAvailable) [])
      by (rewrite <- Ht; apply filter_In; split; [exact Hin | reflexivity]).
    destruct Hf. }
  rewrite filter_app, Ht, in_app_iff.
  destruct (Nat.eqb (length (gpus h)) 0) eqn:Eg; simpl.
  - apply Nat.eqb_eq, length_zero_iff_nil in Eg. split; [reflexivity|].
    split; [intros _; exact Eg | intros _; left; right; left; reflexivity].
  - split; [reflexivity|]. split.
    + intros [H|H]; [|contradiction].
      repeat (destruct H as [H|H]; [discriminate|]). destruct H.
    + intros Hg. rewrite Hg in Eg. discriminate.
Qed.

(** When the delegate yields [2^d - 1] frames per adjacent pair and the
    node returns, its progress bar ends exactly at the total it was created
    with. *)
Theorem run_progress_reaches_total (h : host) (images : list tensor) (d : nat)
  (m : handle) (per_pair : tensor -> tensor -> list (yielded tensor arr))
  (stop : option exc) (b : list tensor) :
  images <> [] ->
  (forall a c, length (per_pair a c) = 2 ^ d - 1) ->
  irfm images d m =
    (flat_map (fun '(a, c) => per_pair a c) (combine images (tl images)), stop) ->
  snd (run h images d m) = inr b ->
  In (PbarNew ((length images - 1) * (2 ^ d - 1))) (fst (run h images d m)) /\
  progress (fst (run h images d m)) = (length images - 1) * (2 ^ d - 1).
Proof.
  intros Hne Hlen Hirfm Hrun.
  rewrite (run_nonempty _ _ _ _ _ _ h images d m _ stop Hne Hirfm) in Hrun |- *.
  cbn [fst snd] in Hrun |- *.
  destruct (tail_inr _ _ _ _ _ _ _ _ Hrun) as (_ & _ & _ & ->).
  split; [right; right; right; left; reflexivity|].
  rewrite progress_app, progress_app, progress_loop_trace,
    (length_flat_map_const _ (2 ^ d - 1)), length_adjacent_pairs.
  - destruct (Nat.eqb (length (gpus h)) 0); simpl; lia.
  - intros [a c]. apply Hlen.
Qed.

End RunErrorProofs.

(** ** Witnesses of the properties above *)

Lemma get_models_no_presets_witness :
  In [""; "models"; "FILM"; "film_net_fp32.pth"]
     (get_models film_models_dir film_fs_exported) /\
  In "Style" ["L1"; "Style"; "VGG"] /\
  [""; "models"; "FILM"; "film_net_fp32.pth"] <> film_models_dir ++ ["FILM"; "Style"].
Proof.
  assert (H1 : In [""; "models"; "FILM"; "film_net_fp32.pth"]
                  (get_models film_models_dir film_fs_exported))
    by (vm_compute; left; reflexivity).
  assert (H2 : In "Style" ["L1"; "Style"; "VGG"]) by (right; left; reflexivity).
  exact (conj H1 (conj H2 (get_models_no_presets film_models_dir film_fs_exported
    _ "Style" H1 H2))).
Defined.

Lemma run_delegate_error_witness :
  [1; 2; 3] <> [] /\
  stub_delegate_err [1; 2; 3] 2 tt =
    (fst (stub_delegate_err [1; 2; 3] 2 tt),
     Some (ExternalError "ResourceExhaustedError" "OOM when allocating tensor")) /\
  (forall i, 1 <= i <= length (fst (stub_delegate_err [1; 2; 3] 2 tt)) ->
             interrupt_at quiet_host i = false) /\
  (snd (do_interpolation stub_from_numpy stub_shape stub_delegate_err
          quiet_host [1; 2; 3] 2 tt)
     = inl (ExternalError "ResourceExhaustedError" "OOM when allocating tensor") /\
   progress (fst (do_interpolation stub_from_numpy stub_shape stub_delegate_err
                    quiet_host [1; 2; 3] 2 tt))
     = length (fst (stub_delegate_err [1; 2; 3] 2 tt))).
Proof.
  assert (H1 : [1; 2; 3] <> []) by discriminate.
  assert (H2 : stub_delegate_err [1; 2; 3] 2 tt =
    (fst (stub_delegate_err [1; 2; 3] 2 tt),
     Some (ExternalError "ResourceExhaustedError" "OOM when allocating tensor")))
    by reflexivity.
  assert (H3 : forall i, 1 <= i <= length (fst (stub_delegate_err [1; 2; 3] 2 tt)) ->
                interrupt_at quiet_host i = false) by reflexivity.
  exact (conj H1 (conj H2 (conj H3
    (run_delegate_error nat nat unit stub_from_numpy stub_shape stub_delegate_err
       quiet_host [1; 2; 3] 2 tt _ _ H1 H2 H3)))).
Defined.

Lemma run_no_frames_witness :
  [5] <> [] /\ stub_delegate_none [5] 2 tt = ([], None) /\
  (snd (do_interpolation stub_from_numpy stub_shape stub_delegate_none
          quiet_host [5] 2 tt)
     = inl (ValueError "torch.cat(): expected a non-empty list of Tensors") /\
   progress (fst (do_interpolation stub_from_numpy stub_shape stub_delegate_none
                    quiet_host [5] 2 tt)) = 0).
Proof.
  assert (H1 : [5] <> []) by discriminate.
  assert (H2 : stub_delegate_none [5] 2 tt = ([], None)) by reflexivity.
  exact (conj H1 (conj H2
    (run_no_frames nat nat unit stub_from_numpy stub_shape stub_delegate_none
       quiet_host [5] 2 tt H1 H2))).
Defined.

Lemma run_batch_uniform_witness :
  [1; 2; 3] <> [] /\
  snd (stub_run quiet_host [1; 2; 3] 2) = inr [1011; 12; 1013; 1021; 22; 1023] /\
  exists t0 rest, [1011; 12; 1013; 1021; 22; 1023] = t0 :: rest /\
    Forall (fun t => stub_shape t = stub_shape t0) [1011; 12; 1013; 1021; 22; 1023].
Proof.
  assert (H1 : [1; 2; 3] <> []) by discriminate.
  assert (H2 : snd (stub_run quiet_host [1; 2; 3] 2)
               = inr [1011; 12; 1013; 1021; 22; 1023]) by reflexivity.
  exact (conj H1 (conj H2
    (run_batch_uniform nat nat unit stub_from_numpy stub_shape stub_delegate
       quiet_host [1; 2; 3] 2 tt _ H1 H2))).
Defined.

Lemma run_mixed_shapes_witness :
  [1; 2; 3] <> [] /\
  stub_delegate [1; 2; 3] 2 tt = (fst (stub_delegate [1; 2; 3] 2 tt), None) /\
  (forall i, 1 <= i <= length (fst (stub_delegate [1; 2; 3] 2 tt)) ->
             interrupt_at quiet_host i = false) /\
  In (YArray 11) (fst (stub_delegate [1; 2; 3] 2 tt)) /\
  In (YTensor 12) (fst (stub_delegate [1; 2; 3] 2 tt)) /\
  stub_shape_mixed (to_tensor stub_from_numpy (YArray 11))
    <> stub_shape_mixed (to_tensor stub_from_numpy (YTensor 12)) /\
  snd (do_interpolation stub_from_numpy stub_shape_mixed stub_delegate
         quiet_host [1; 2; 3] 2 tt)
    = inl (RuntimeError "Sizes of tensors must match").
Proof.
  assert (H1 : [1; 2; 3] <> []) by discriminate.
  assert (H2 : stub_delegate [1; 2; 3] 2 tt
               = (fst (stub_delegate [1; 2; 3] 2 tt), None)) by reflexivity.
  assert (H3 : forall i, 1 <= i <= length (fst (stub_delegate [1; 2; 3] 2 tt)) ->
                interrupt_at quiet_host i = false) by reflexivity.
  assert (H4 : In (YArray 11) (fst (stub_delegate [1; 2; 3] 2 tt)))
    by (left; reflexivity).
  assert (H5 : In (YTensor 12) (fst (stub_delegate [1; 2; 3] 2 tt)))
    by (right; left; reflexivity).
  assert (H6 : stub_shape_mixed (to_tensor stub_from_numpy (YArray 11))
               <> stub_shape_mixed (to_tensor stub_from_numpy (YTensor 12)))
    by discriminate.
  exact (conj H1 (conj H2 (conj H3 (conj H4 (conj H5 (conj H6
    (run_mixed_shapes nat nat unit stub_from_numpy stub_shape_mixed stub_delegate
       quiet_host [1; 2; 3] 2 tt _ _ _ H1 H2 H3 H4 H5 H6))))))).
Defined.

Lemma run_gpu_log_witness :
  [1; 2; 3] <> [] /\
  length (filter is_gpu_log (fst (stub_run gpu_host [1; 2; 3] 2))) = 1 /\
  (In (Log WARNING GpuNotAvailable) (fst (stub_run gpu_host [1; 2; 3] 2))
   <-> gpus gpu_host = []).
Proof.
  assert (H1 : [1; 2; 3] <> []) by discriminate.
  exact (conj H1 (run_gpu_log nat nat unit stub_from_numpy stub_shape stub_delegate
    gpu_host [1; 2; 3] 2 tt H1)).
Defined.

Lemma run_progress_reaches_total_witness :
  [1; 2; 3] <> [] /\
  (forall a c, length (stub_pair a c) = 2 ^ 2 - 1) /\
  stub_delegate [1; 2; 3] 2 tt =
    (flat_map (fun '(a, c) => stub_pair a c) (combine [1; 2; 3] (tl [1; 2; 3])),
     None) /\
  snd (stub_run quiet_host [1; 2; 3] 2) = inr [1011; 12; 1013; 1021; 22; 1023] /\
  (In (PbarNew ((length [1; 2; 3] - 1) * (2 ^ 2 - 1)))
      (fst (stub_run quiet_host [1; 2; 3] 2)) /\
   progress (fst (stub_run quiet_host [1; 2; 3] 2))
     = (length [1; 2; 3] - 1) * (2 ^ 2 - 1)).
Proof.
  assert (H0 : [1; 2; 3] <> []) by discriminate.
  assert (H1 : forall a c, length (stub_pair a c) = 2 ^ 2 - 1)
    by (intros; reflexivity).
  assert (H2 : stub_delegate [1; 2; 3] 2 tt =
    (flat_map (fun '(a, c) => stub_pair a c) (combine [1; 2; 3] (tl [1; 2; 3])),
     None)) by reflexivity.
  assert (H3 : snd (stub_run quiet_host [1; 2; 3] 2)
               = inr [1011; 12; 1013; 1021; 22; 1023]) by reflexivity.
  exact (conj H0 (conj H1 (conj H2 (conj H3
    (run_progress_reaches_total nat nat unit stub_from_numpy stub_shape
       stub_delegate quiet_host [1; 2; 3] 2 tt stub_pair None _ H0 H1 H2 H3))))).
Defined.
